(** * timeSystemLib: the build-configuration fragment of the timeSystem package

    The source file [timeSystemLib.py] is an SCons tool module with two entry
    points, [generate(env, **kw)] and [exists(env)].  Everything it does is
    done through the build environment [env] that the orchestrator hands in:
    it calls [env.Tool(name, **kwargs)] and reads [env['cfitsioLibs']].

    The environment is foreign code.  It is modelled as an interface with the
    two capabilities the module uses; a call of [Tool] may change the
    environment and may raise, a subscript of a missing key raises [KeyError].
    A run of [generate] takes the environment it is given to the sequence of
    operations it performed on it (each with its outcome), to the environment
    as the run left it, and to the way the run ended. *)

From Stdlib Require Import ZArith.
From stdpp Require Import base option list strings gmap.

Open Scope string_scope.
Open Scope list_scope.

#[local] Set Warnings "-register-all".

(** ** Python values *)

(** The values that flow through the module: the keyword options, and the
    library lists kept in the configuration mapping.  They are plain data, so
    testing one for truth always gives an answer. *)
Inductive value : Type :=
| VNone
| VBool (b : bool)
| VInt (n : Z)
| VStr (s : string)
| VList (vs : list value).

(** Python truth value testing: [None], [False], [0], [''] and [[]] are
    false, every other value is true. *)
Definition truthy (v : value) : bool :=
  match v with
  | VNone => false
  | VBool b => b
  | VInt n => negb (n =? 0)%Z
  | VStr s => negb (String.eqb s "")
  | VList vs => match vs with [] => false | _ :: _ => true end
  end.

(** Structural equality on values, with the nested recursion on lists
    written out.  On lists of strings, which is what library lists are, it is
    Python's [==]. *)
Fixpoint value_eqb (v w : value) {struct v} : bool :=
  match v, w with
  | VNone, VNone => true
  | VBool a, VBool b => Bool.eqb a b
  | VInt a, VInt b => (a =? b)%Z
  | VStr a, VStr b => String.eqb a b
  | VList vs, VList ws =>
      (fix all2 (xs ys : list value) {struct xs} : bool :=
         match xs, ys with
         | [], [] => true
         | x :: xs', y :: ys' => value_eqb x y && all2 xs' ys'
         | _, _ => false
         end) vs ws
  | _, _ => false
  end.

(** Induction on values that reaches inside list elements. *)
Fixpoint value_nested_ind (P : value → Prop)
    (HNone : P VNone) (HBool : ∀ b, P (VBool b)) (HInt : ∀ n, P (VInt n))
    (HStr : ∀ s, P (VStr s)) (HList : ∀ vs, Forall P vs → P (VList vs))
    (v : value) {struct v} : P v :=
  match v with
  | VNone => HNone
  | VBool b => HBool b
  | VInt n => HInt n
  | VStr s => HStr s
  | VList vs =>
      HList vs
        ((fix elems (xs : list value) : Forall P xs :=
            match xs with
            | [] => List.Forall_nil P
            | x :: xs' =>
                @List.Forall_cons value P x xs'
                  (value_nested_ind P HNone HBool HInt HStr HList x) (elems xs')
            end) vs)
  end.

Lemma value_eqb_eq (v w : value) : value_eqb v w = true ↔ v = w.
Proof.
  revert w. induction v as [| a | a | a | vs IH] using value_nested_ind;
    intros [| b | b | b | ws]; simpl; try (split; [discriminate | congruence]);
    try (split; congruence).
  - rewrite Bool.eqb_true_iff. split; congruence.
  - rewrite Z.eqb_eq. split; congruence.
  - rewrite String.eqb_eq. split; congruence.
  - revert ws. induction IH as [| x xs Hx _ IHxs]; intros [| y ys];
      try (split; [discriminate | congruence]); try (split; congruence).
    rewrite andb_true_iff, Hx. specialize (IHxs ys). rewrite IHxs.
    split; [intros [-> Heq]; congruence | intros Heq; split; congruence].
Qed.

#[global] Instance value_eq_dec : EqDecision value.
Proof.
  intros v w. destruct (value_eqb v w) eqn:Heq.
  - left. by apply value_eqb_eq.
  - right. intros Hvw. apply value_eqb_eq in Hvw. congruence.
Defined.

(** ** Calls, exceptions and outcomes *)

(** A Python exception: its class name and its argument. *)
Inductive exn : Type := Exn (cls : string) (arg : string).

Definition KeyError (key : string) : exn := Exn "KeyError" key.

#[global] Instance exn_eq_dec : EqDecision exn.
Proof. solve_decision. Defined.

(** How a Python call ends: it returns a value or it raises. *)
Inductive result (A : Type) : Type :=
| Ok (a : A)
| Raise (x : exn).
Arguments Ok {A} a.
Arguments Raise {A} x.

#[global] Instance result_eq_dec `{EqDecision A} : EqDecision (result A).
Proof. solve_decision. Defined.

(** One call [env.Tool(name, **kwargs)]: the tool name and the keyword
    arguments in the order they are written. *)
Record call : Type := Call { call_tool : string; call_kwargs : list (string * value) }.

#[global] Instance call_eq_dec : EqDecision call.
Proof. solve_decision. Defined.

(** What a run does to the environment, one entry per operation and in
    program order: a [Tool] call with [None] when it returned and [Some x]
    when it raised [x], or a subscript [env[key]] with what it gave. *)
Inductive event : Type :=
| EvTool (c : call) (out : option exn)
| EvGetItem (key : string) (out : result value).

#[global] Instance event_eq_dec : EqDecision event.
Proof. solve_decision. Defined.

(** ** The build environment *)

(** The two capabilities of the environment object that the module uses.
    [env_Tool] is the environment's own [Tool] method: it gives the
    environment as the call leaves it, and the exception if the call raised
    (what a call did before it raised stays done).  [env_config] is the
    configuration mapping behind [env[...]]. *)
Class Environment (E : Type) : Type := {
  env_Tool : string → list (string * value) → E → E * option exn;
  env_config : E → gmap string value;
}.

(** ** Runs *)

(** What running a piece of Python code on an environment amounts to: the
    operations performed, the environment at the end, and the value returned
    or the exception that ended the run. *)
Record run (E A : Type) : Type :=
  Run { trace : list event; final_env : E; outcome : result A }.
Arguments Run {E A} trace final_env outcome.
Arguments trace {E A} r.
Arguments final_env {E A} r.
Arguments outcome {E A} r.

Definition action (E A : Type) : Type := E → run E A.

Definition action_ret {E A : Type} (a : A) : action E A :=
  λ env, Run [] env (Ok a).

(** Sequencing.  An exception ends the run where it is raised: nothing of
    the rest is executed, and the environment stays as it then is. *)
Definition action_bind {E A B : Type} (k : A → action E B) (m : action E A) :
    action E B :=
  λ env,
    match m env with
    | Run tr env' (Ok a) =>
        match k a env' with
        | Run tr' env'' r => Run (tr ++ tr') env'' r
        end
    | Run tr env' (Raise x) => Run tr env' (Raise x)
    end.

#[global] Instance action_mret {E : Type} : MRet (action E) := @action_ret E.
#[global] Instance action_mbind {E : Type} : MBind (action E) := @action_bind E.

(** How a statement that calls into the environment ends: it goes on with
    [a] when the call returned, it raises what the call raised. *)
Definition tool_outcome {A : Type} (a : A) (out : option exn) : result A :=
  match out with None => Ok a | Some x => Raise x end.

(** [env.Tool(name, **kwargs)] as a statement: the value it returns is
    dropped. *)
Definition Tool `{Environment E} (name : string) (kwargs : list (string * value)) :
    action E unit :=
  λ env,
    let '(env', out) := env_Tool name kwargs env in
    Run [EvTool (Call name kwargs) out] env' (tool_outcome () out).

(** [env[key]]. *)
Definition getitem `{Environment E} (key : string) : action E value :=
  λ env,
    match env_config env !! key with
    | Some v => Run [EvGetItem key (Ok v)] env (Ok v)
    | None => Run [EvGetItem key (Raise (KeyError key))] env (Raise (KeyError key))
    end.

(** [d.get(key, dflt)] on a dict. *)
Definition dict_get (d : gmap string value) (key : string) (dflt : value) : value :=
  default dflt (d !! key).

(** ** The module *)

(** [def generate(env, **kw)]. *)
Definition generate `{Environment E} (env : E) (kw : gmap string value) : run E value :=
  ((if negb (truthy (dict_get kw "depsOnly" (VInt 0)))
    then Tool "addLibrary" [("library", VList [VStr "timeSystem"])]
    else mret ());;
   Tool "st_facilitiesLib" [];;
   Tool "st_streamLib" [];;
   Tool "tipLib" [];;
   Tool "st_appLib" [];;
   libs ← getitem "cfitsioLibs";
   Tool "addLibrary" [("library", libs)];;
   mret VNone : action E value) env.

(** [def exists(env)].  It asks nothing of the environment, so it is defined
    for any type of environment at all. *)
Definition exists_ {E : Type} (env : E) : run E value :=
  (mret (VInt 1) : action E value) env.

(** ** What a run shows *)

(** The [Tool] calls of a run, in the order they were issued.  A call that
    raised was issued all the same. *)
Definition calls (tr : list event) : list call :=
  omap (λ ev, match ev with EvTool c _ => Some c | EvGetItem _ _ => None end) tr.

(** The exception an operation raised, if it did. *)
Definition raised (ev : event) : option exn :=
  match ev with
  | EvTool _ out => out
  | EvGetItem _ (Ok _) => None
  | EvGetItem _ (Raise x) => Some x
  end.

(** What the subscript [env['cfitsioLibs']] gave in a run: [None] when the
    run never came to it. *)
Definition cfitsioLibs_lookup (tr : list event) : option (result value) :=
  head (omap (λ ev, match ev with
                    | EvGetItem key out =>
                        if decide (key = "cfitsioLibs") then Some out else None
                    | EvTool _ _ => None
                    end) tr).

(** Whether every [Tool] call of a run returned. *)
Definition all_tools_returned (tr : list event) : bool :=
  forallb (λ ev, match ev with EvTool _ (Some _) => false | _ => true end) tr.

(** The truth value of [kw.get('depsOnly', 0)]. *)
Definition depsOnly (kw : gmap string value) : bool :=
  truthy (dict_get kw "depsOnly" (VInt 0)).

(** The list [['timeSystem']]. *)
Definition timeSystem_libs : value := VList [VStr "timeSystem"].

(** [env.Tool('addLibrary', library = ['timeSystem'])]. *)
Definition artifact_call : call := Call "addLibrary" [("library", timeSystem_libs)].

(** The four calls of lines 5 to 8. *)
Definition dependency_calls : list call :=
  [Call "st_facilitiesLib" []; Call "st_streamLib" []; Call "tipLib" [];
   Call "st_appLib" []].

Definition dependency_names : list string := call_tool <$> dependency_calls.

(** [env.Tool('addLibrary', library = libs)]. *)
Definition third_party_call (libs : value) : call :=
  Call "addLibrary" [("library", libs)].

(** The registration of the module's own library, when the options ask for
    it. *)
Definition own_registration (kw : gmap string value) : list call :=
  if depsOnly kw then [] else [artifact_call].

(** The calls of a run that name one of the four dependency tools. *)
Definition dependencies_issued (tr : list event) : list call :=
  filter (λ c, call_tool c ∈ dependency_names) (calls tr).

(** How often a given call occurs among the calls of a run. *)
Definition times_issued (c : call) (tr : list event) : nat :=
  length (filter (λ c', c' = c) (calls tr)).

(** The registration of the third-party libraries as far as a run came to
    it: the call that follows a lookup of [cfitsioLibs] that gave a value. *)
Definition third_party_issued (tr : list event) : list call :=
  match cfitsioLibs_lookup tr with
  | Some (Ok libs) => [third_party_call libs]
  | _ => []
  end.

(** ** Environments to run the module against *)

(** A recording double: every [Tool] call is accepted and noted, the
    configuration is whatever it was built with. *)
Record recorder : Type :=
  Recorder { rec_config : gmap string value; rec_calls : list call }.

#[global] Instance recorder_env : Environment recorder := {|
  env_Tool name kwargs r :=
    (Recorder (rec_config r) (rec_calls r ++ [Call name kwargs]), None);
  env_config := rec_config;
|}.

(** A strict orchestrator: it resolves only the tool names it knows, and it
    refuses a registration it has already taken. *)
Record registry : Type :=
  Registry { reg_config : gmap string value; reg_tools : list string;
             reg_loaded : list call }.

#[global] Instance registry_env : Environment registry := {|
  env_Tool name kwargs r :=
    if decide (name ∈ reg_tools r) then
      if decide (Call name kwargs ∈ reg_loaded r)
      then (r, Some (Exn "DuplicateTool" name))
      else (Registry (reg_config r) (reg_tools r)
              (reg_loaded r ++ [Call name kwargs]), None)
    else (r, Some (Exn "UnknownTool" name));
  env_config := reg_config;
|}.

(** An environment that takes every [Tool] call and whose tools leave the
    binding of [cfitsioLibs] alone. *)
Class Accepting (E : Type) `{Environment E} : Prop := {
  tool_returns : ∀ name kwargs env, (env_Tool name kwargs env).2 = None;
  tool_keeps_cfitsioLibs : ∀ name kwargs env,
    env_config (env_Tool name kwargs env).1 !! "cfitsioLibs" =
    env_config env !! "cfitsioLibs";
}.

#[global] Instance recorder_accepting : Accepting recorder.
Proof. split; reflexivity. Qed.

(** Configurations and options used in the examples. *)
Definition cfitsio_libs : value := VList [VStr "cfitsio"].

Definition cfitsio_config : gmap string value := {[ "cfitsioLibs" := cfitsio_libs ]}.

Definition timeSystem_config : gmap string value :=
  {[ "cfitsioLibs" := timeSystem_libs ]}.

Definition depsOnly_options : gmap string value := {[ "depsOnly" := VBool true ]}.

Definition all_tools : list string := "addLibrary" :: dependency_names.

(** A strict orchestrator that knows every tool the module names. *)
Definition strict_registry : registry := Registry cfitsio_config all_tools [].

(** One in which the tool [st_streamLib] cannot be resolved. *)
Definition registry_without_stream : registry :=
  Registry cfitsio_config ["addLibrary"; "st_facilitiesLib"; "tipLib"; "st_appLib"] [].

(** The keys a run subscripted the environment with, in order. *)
Definition lookups (tr : list event) : list string :=
  omap (λ ev, match ev with EvGetItem key _ => Some key | EvTool _ _ => None end) tr.

(** An environment whose tool [st_appLib] is the one that defines
    [cfitsioLibs], as a tool may do with any construction variable. *)
Record provider : Type := Provider { prov_config : gmap string value }.

#[global] Instance provider_env : Environment provider := {|
  env_Tool name kwargs p :=
    if decide (name = "st_appLib")
    then (Provider (<["cfitsioLibs" := cfitsio_libs]> (prov_config p)), None)
    else (p, None);
  env_config := prov_config;
|}.


(** One that cannot resolve [st_streamLib] and has [cfitsioLibs] bound to
    another list. *)
Definition timeSystem_registry_without_stream : registry :=
  Registry timeSystem_config ["addLibrary"; "st_facilitiesLib"; "tipLib"; "st_appLib"] [].

(** Where a [Tool] call of a run raised: the number of [Tool] calls that
    returned before it; [None] when none raised. *)
Fixpoint raise_position (tr : list event) : option nat :=
  match tr with
  | [] => None
  | EvTool _ (Some _) :: _ => Some 0%nat
  | EvTool _ None :: tr' => S <$> raise_position tr'
  | EvGetItem _ _ :: tr' => raise_position tr'
  end.

(** ** The shape of a run *)

(** The trace of calls that all returned. *)
Definition returned (cs : list call) : list event :=
  (λ c, EvTool c None) <$> cs.

(** The three ways a run of [generate] can go: a [Tool] call before the
    lookup raises; the lookup misses; the lookup gives a list and the last
    registration is issued, which returns or raises. *)
Inductive run_shape (kw : gmap string value) : list event → result value → Prop :=
| run_tool_raised pre c post x :
    own_registration kw ++ dependency_calls = pre ++ c :: post →
    run_shape kw (returned pre ++ [EvTool c (Some x)]) (Raise x)
| run_key_missing :
    run_shape kw
      (returned (own_registration kw ++ dependency_calls) ++
       [EvGetItem "cfitsioLibs" (Raise (KeyError "cfitsioLibs"))])
      (Raise (KeyError "cfitsioLibs"))
| run_registered libs out :
    run_shape kw
      (returned (own_registration kw ++ dependency_calls) ++
       [EvGetItem "cfitsioLibs" (Ok libs); EvTool (third_party_call libs) out])
      (tool_outcome VNone out).

Section Runs.
Context `{Environment E}.

(** Issue the calls of a list one after the other; stop at the first that
    raises. *)
Fixpoint issue (cs : list call) (env : E) : run E unit :=
  match cs with
  | [] => Run [] env (Ok ())
  | c :: cs' =>
      let '(env', out) := env_Tool (call_tool c) (call_kwargs c) env in
      match out with
      | None =>
          match issue cs' env' with
          | Run tr env'' r => Run (EvTool c None :: tr) env'' r
          end
      | Some x => Run [EvTool c (Some x)] env' (Raise x)
      end
  end.

End Runs.

(** ** Traces *)

Lemma calls_app (tr1 tr2 : list event) : calls (tr1 ++ tr2) = calls tr1 ++ calls tr2.
Proof. apply omap_app. Qed.

Lemma calls_returned (cs : list call) : calls (returned cs) = cs.
Proof. induction cs as [| c cs IH]; simpl; [done | by f_equal]. Qed.

Lemma cfitsioLibs_lookup_returned (cs : list call) (tr : list event) :
  cfitsioLibs_lookup (returned cs ++ tr) = cfitsioLibs_lookup tr.
Proof. induction cs as [| c cs IH]; simpl; done. Qed.

Lemma raised_returned (cs : list call) : Forall (λ ev, raised ev = None) (returned cs).
Proof. induction cs; constructor; done. Qed.

Lemma all_tools_returned_app (tr1 tr2 : list event) :
  all_tools_returned (tr1 ++ tr2) = all_tools_returned tr1 && all_tools_returned tr2.
Proof. apply forallb_app. Qed.

Lemma all_tools_returned_returned (cs : list call) : all_tools_returned (returned cs) = true.
Proof. induction cs; simpl; done. Qed.

Lemma times_issued_app (c : call) (tr1 tr2 : list event) :
  times_issued c (tr1 ++ tr2) = times_issued c tr1 + times_issued c tr2.
Proof. unfold times_issued. by rewrite calls_app, filter_app, length_app. Qed.

Lemma times_issued_last (c : call) (libs : value) (out : option exn) :
  times_issued c [EvGetItem "cfitsioLibs" (Ok libs); EvTool (third_party_call libs) out] =
  if decide (third_party_call libs = c) then 1 else 0.
Proof.
  unfold times_issued. simpl. rewrite filter_cons, filter_nil. by case_decide.
Qed.

(** How often the registration of [libs] occurs before the lookup: once if
    the module registers itself and [libs] is its own list, else never. *)
Lemma times_issued_before (libs : value) (kw : gmap string value) :
  times_issued (third_party_call libs)
    (returned (own_registration kw ++ dependency_calls)) =
  if decide (depsOnly kw = false ∧ libs = timeSystem_libs) then 1 else 0.
Proof.
  unfold times_issued, own_registration. rewrite calls_returned.
  destruct (depsOnly kw);
    unfold dependency_calls, artifact_call, third_party_call, timeSystem_libs;
    cbn [app]; rewrite ?filter_cons, ?filter_nil.
  - repeat (rewrite decide_False by discriminate).
    rewrite decide_False by (intros [? _]; discriminate). reflexivity.
  - repeat (rewrite (decide_False (P := Call _ [] = _)) by discriminate).
    destruct (decide (libs = VList [VStr "timeSystem"])) as [-> | Hne].
    + rewrite !decide_True by done. reflexivity.
    + rewrite !decide_False by (intuition congruence). reflexivity.
Qed.

(** In a stretch of returned operations closed by one more, an operation
    that raised can only be the closing one. *)
Lemma raise_is_last (good pre post : list event) (l ev : event) :
  Forall (λ ev', raised ev' = None) good →
  good ++ [l] = pre ++ ev :: post →
  is_Some (raised ev) →
  post = [] ∧ ev = l.
Proof.
  intros Hgood. revert pre. induction Hgood as [| g good Hg _ IH]; intros pre Heq Hev.
  - destruct pre as [| p pre]; simpl in Heq; simplify_eq; [done |].
    by destruct pre.
  - destruct pre as [| p pre]; simpl in Heq; simplify_eq.
    + rewrite Hg in Hev. by destruct Hev.
    + eauto.
Qed.

Lemma raise_position_returned (cs : list call) (tr : list event) :
  raise_position (returned cs ++ tr) = (λ n, length cs + n)%nat <$> raise_position tr.
Proof.
  induction cs as [| c cs IH]; simpl.
  - by destruct (raise_position tr).
  - rewrite IH. by destruct (raise_position tr).
Qed.

(** No [Tool] call raised exactly when there is no position at which one
    did. *)
Lemma raise_position_None (tr : list event) :
  raise_position tr = None ↔ all_tools_returned tr = true.
Proof.
  induction tr as [| [c [x |] | key out] tr IH]; simpl; try done.
  rewrite <- IH. by destruct (raise_position tr).
Qed.

(** ** Runs against any environment *)

Section RunLemmas.
Context `{Environment E}.

Lemma issue_ok (cs : list call) (env : E) (u : unit) :
  outcome (issue cs env) = Ok u → trace (issue cs env) = returned cs.
Proof.
  revert env. induction cs as [| c cs IH]; intros env; simpl; [done |].
  destruct (env_Tool _ _ env) as [env1 [x |]]; simpl; [done |].
  specialize (IH env1). destruct (issue cs env1) as [tr env2 r]. simpl in *.
  intros Hr. by rewrite (IH Hr).
Qed.

Lemma issue_raise (cs : list call) (env : E) (x : exn) :
  outcome (issue cs env) = Raise x →
  ∃ pre c post,
    cs = pre ++ c :: post ∧ trace (issue cs env) = returned pre ++ [EvTool c (Some x)].
Proof.
  revert env. induction cs as [| c cs IH]; intros env; simpl; [done |].
  destruct (env_Tool _ _ env) as [env1 [y |]]; simpl.
  - intros [= <-]. by exists [], c, cs.
  - specialize (IH env1). destruct (issue cs env1) as [tr env2 r]. simpl in *.
    intros Hr. destruct (IH Hr) as (pre & c' & post & -> & ->).
    by exists (c :: pre), c', post.
Qed.

(** [generate] is: the own registration and the four dependencies, issued in
    order, then the lookup, then the last registration. *)
Lemma generate_issue (env : E) (kw : gmap string value) :
  generate env kw =
  match issue (own_registration kw ++ dependency_calls) env with
  | Run tr env1 (Raise x) => Run tr env1 (Raise x)
  | Run tr env1 (Ok _) =>
      match env_config env1 !! "cfitsioLibs" with
      | None =>
          Run (tr ++ [EvGetItem "cfitsioLibs" (Raise (KeyError "cfitsioLibs"))])
            env1 (Raise (KeyError "cfitsioLibs"))
      | Some libs =>
          let '(env2, out) := env_Tool "addLibrary" [("library", libs)] env1 in
          Run (tr ++ [EvGetItem "cfitsioLibs" (Ok libs);
                      EvTool (third_party_call libs) out])
            env2 (tool_outcome VNone out)
      end
  end.
Proof.
  unfold generate, own_registration, depsOnly, artifact_call, third_party_call,
    timeSystem_libs.
  destruct (truthy (dict_get kw "depsOnly" (VInt 0))); simpl;
    unfold mbind, action_mbind, action_bind, mret, action_mret, action_ret,
      Tool, getitem; simpl;
    repeat (match goal with
            | |- context [env_Tool ?n ?k ?e] =>
                destruct (env_Tool n k e) as [? [? |]]; simpl; try reflexivity
            | |- context [env_config ?e !! ?k] =>
                destruct (env_config e !! k); simpl; try reflexivity
            end).
Qed.

Lemma generate_shape (env : E) (kw : gmap string value) :
  run_shape kw (trace (generate env kw)) (outcome (generate env kw)).
Proof.
  rewrite generate_issue.
  pose proof (issue_ok (own_registration kw ++ dependency_calls) env) as Hok.
  pose proof (issue_raise (own_registration kw ++ dependency_calls) env) as Hraise.
  destruct (issue _ env) as [tr env1 [[] | x]]; simpl in Hok, Hraise.
  - rewrite (Hok () eq_refl).
    destruct (env_config env1 !! "cfitsioLibs") as [libs |]; [| constructor].
    destruct (env_Tool _ _ env1) as [env2 out]. constructor.
  - destruct (Hraise x eq_refl) as (pre & c & post & Hcs & ->).
    by econstructor.
Qed.

End RunLemmas.

(** Case analysis on a run of [generate]. *)
Ltac run_cases env kw :=
  let Hs := fresh "Hshape" in
  pose proof (generate_shape env kw) as Hs;
  destruct (generate env kw) as [? ? ?]; simpl in Hs |- *;
  destruct Hs as [pre c post exc Hcs | | got out].

(** The same for a second run in one proof, with names of the system's
    choosing. *)
Ltac run_cases_again env kw :=
  let Hs := fresh "Hshape" in
  pose proof (generate_shape env kw) as Hs;
  destruct (generate env kw) as [? ? ?]; simpl in Hs |- *;
  destruct Hs as [? ? ? ? ? | | ? ?].

(** Where in a known list of calls the raising one stood. *)
Ltac split_calls :=
  repeat match goal with
         | H : _ :: _ = ?pre ++ _ :: _ |- _ => destruct pre; simpl in H; simplify_eq
         | H : [] = ?pre ++ _ :: _ |- _ => destruct pre; simpl in H; discriminate
         end.

(** [depsOnly] is false exactly when the option is absent or bound to a
    false value. *)
Lemma depsOnly_false_iff (kw : gmap string value) :
  depsOnly kw = false ↔
  kw !! "depsOnly" = None ∨ ∃ v, kw !! "depsOnly" = Some v ∧ truthy v = false.
Proof.
  unfold depsOnly, dict_get. destruct (kw !! "depsOnly") as [v |]; simpl.
  - split; [intros Hv; right; eauto | intros [[=] | (w & [= <-] & Hw)]; done].
  - split; [by left | done].
Qed.

Lemma depsOnly_true_iff (kw : gmap string value) :
  depsOnly kw = true ↔ ∃ v, kw !! "depsOnly" = Some v ∧ truthy v = true.
Proof.
  unfold depsOnly, dict_get. destruct (kw !! "depsOnly") as [v |]; simpl.
  - split; [eauto | by intros (w & [= <-] & Hw)].
  - split; [done | by intros (w & [=] & _)].
Qed.

(** A run is a stretch of operations that returned, followed by one last
    operation; the run raises exactly what that last operation raised. *)
Lemma generate_last `{Environment E} (env : E) (kw : gmap string value) :
  ∃ good ev,
    trace (generate env kw) = good ++ [ev] ∧
    Forall (λ ev', raised ev' = None) good ∧
    raised ev = match outcome (generate env kw) with Raise x => Some x | Ok _ => None end.
Proof.
  run_cases env kw.
  - exists (returned pre), (EvTool c (Some exc)). eauto using raised_returned.
  - eexists _, _. eauto using raised_returned.
  - exists (returned (own_registration kw ++ dependency_calls) ++
            [EvGetItem "cfitsioLibs" (Ok got)]), (EvTool (third_party_call got) out).
    rewrite <- app_assoc. split_and!; [done | | by destruct out].
    apply Forall_app. split; [apply raised_returned | by constructor].
Qed.

(** ** Runs against an environment that takes every call *)

Section AcceptingRuns.
Context `{Accepting E}.

Lemma accepting_issue (cs : list call) (env : E) :
  trace (issue cs env) = returned cs ∧
  outcome (issue cs env) = Ok () ∧
  env_config (final_env (issue cs env)) !! "cfitsioLibs" =
    env_config env !! "cfitsioLibs".
Proof.
  revert env. induction cs as [| c cs IH]; intros env; simpl; [done |].
  pose proof (tool_returns (call_tool c) (call_kwargs c) env) as Hret.
  pose proof (tool_keeps_cfitsioLibs (call_tool c) (call_kwargs c) env) as Hkeep.
  destruct (env_Tool _ _ env) as [env1 out]. simpl in Hret, Hkeep. subst out.
  specialize (IH env1). destruct (issue cs env1) as [tr env2 r]. simpl in *.
  destruct IH as (-> & -> & ->). done.
Qed.

(** Against such an environment the run is decided by the options and the
    binding of [cfitsioLibs] alone, and the binding is still the same
    afterwards. *)
Lemma accepting_generate (env : E) (kw : gmap string value) :
  trace (generate env kw) =
    returned (own_registration kw ++ dependency_calls) ++
    match env_config env !! "cfitsioLibs" with
    | Some libs => [EvGetItem "cfitsioLibs" (Ok libs); EvTool (third_party_call libs) None]
    | None => [EvGetItem "cfitsioLibs" (Raise (KeyError "cfitsioLibs"))]
    end ∧
  outcome (generate env kw) =
    match env_config env !! "cfitsioLibs" with
    | Some _ => Ok VNone
    | None => Raise (KeyError "cfitsioLibs")
    end ∧
  env_config (final_env (generate env kw)) !! "cfitsioLibs" =
    env_config env !! "cfitsioLibs".
Proof.
  rewrite generate_issue.
  pose proof (accepting_issue (own_registration kw ++ dependency_calls) env) as Hissue.
  destruct (issue _ env) as [tr env1 r]. simpl in Hissue.
  destruct Hissue as (-> & -> & Hcfg). rewrite Hcfg.
  destruct (env_config env !! "cfitsioLibs") as [libs |] eqn:Hlibs; [| done].
  pose proof (tool_returns "addLibrary" [("library", libs)] env1) as Hret.
  pose proof (tool_keeps_cfitsioLibs "addLibrary" [("library", libs)] env1) as Hkeep.
  destruct (env_Tool _ _ env1) as [env2 out]. simpl in Hret, Hkeep. subst out. simpl.
  by rewrite Hkeep, Hcfg.
Qed.

(** So no [Tool] call raises, and the lookup gives what the environment had
    under [cfitsioLibs] at the start. *)
Lemma accepting_observations (env : E) (kw : gmap string value) :
  all_tools_returned (trace (generate env kw)) = true ∧
  cfitsioLibs_lookup (trace (generate env kw)) =
    Some (match env_config env !! "cfitsioLibs" with
          | Some libs => Ok libs
          | None => Raise (KeyError "cfitsioLibs")
          end).
Proof.
  destruct (accepting_generate env kw) as (-> & _ & _).
  rewrite all_tools_returned_app, all_tools_returned_returned,
    cfitsioLibs_lookup_returned.
  by destruct (env_config env !! "cfitsioLibs").
Qed.

End AcceptingRuns.

(** Two accepting environments, given options of equal truth value for
    [depsOnly] and equal bindings of [cfitsioLibs], are put through the same
    operations. *)
Lemma accepting_deterministic `{Accepting E1} `{Accepting E2}
    (env1 : E1) (env2 : E2) (kw1 kw2 : gmap string value) :
  depsOnly kw1 = depsOnly kw2 →
  env_config env1 !! "cfitsioLibs" = env_config env2 !! "cfitsioLibs" →
  trace (generate env1 kw1) = trace (generate env2 kw2).
Proof.
  intros Hd Hcfg.
  destruct (accepting_generate env1 kw1) as (-> & _ & _).
  destruct (accepting_generate env2 kw2) as (-> & _ & _).
  unfold own_registration. by rewrite Hd, Hcfg.
Qed.

(** ** The module's entry points, claim by claim *)

(** C1, as stated, fails: an environment that cannot resolve [st_streamLib]
    raises at the second dependency, and the last two are never issued. *)
Lemma dependencies_cut_short :
  dependencies_issued (trace (generate registry_without_stream ∅)) =
    [Call "st_facilitiesLib" []; Call "st_streamLib" []] ∧
  outcome (generate registry_without_stream ∅) = Raise (Exn "UnknownTool" "st_streamLib") ∧
  dependencies_issued (trace (generate registry_without_stream ∅)) ≠ dependency_calls.
Proof. split_and!; [reflexivity | reflexivity | discriminate]. Qed.

(** C1, amended.  Whatever the environment and the options, the dependency
    registrations that a run issues are an initial segment of the fixed
    order facilities, stream, toolkit, application framework; and when no
    [Tool] call of the run raises they are exactly these four. *)
Theorem dependencies_in_fixed_order `{Environment E} (env : E) (kw : gmap string value) :
  dependencies_issued (trace (generate env kw)) `prefix_of` dependency_calls ∧
  (all_tools_returned (trace (generate env kw)) = true →
   dependencies_issued (trace (generate env kw)) = dependency_calls).
Proof.
  run_cases env kw; [| | destruct out]; unfold own_registration in *;
    destruct (depsOnly kw); unfold dependency_calls in *; simpl in *; split_calls;
    (split; [vm_compute; eexists; reflexivity | vm_compute; congruence]).
Qed.

Lemma dependencies_in_fixed_order_witness :
  all_tools_returned (trace (generate (Recorder cfitsio_config []) ∅)) = true ∧
  dependencies_issued (trace (generate (Recorder cfitsio_config []) ∅)) = dependency_calls.
Proof.
  split; [reflexivity |].
  apply (proj2 (dependencies_in_fixed_order (Recorder cfitsio_config []) ∅)).
  reflexivity.
Defined.

(** C2, as stated, fails: when [cfitsioLibs] is itself bound to
    [['timeSystem']], the last call repeats the first, and the call
    [addLibrary] with [['timeSystem']] is issued twice. *)
Lemma artifact_registered_twice :
  depsOnly ∅ = false ∧
  times_issued artifact_call (trace (generate (Recorder timeSystem_config []) ∅)) = 2.
Proof. split; reflexivity. Qed.

(** C2, amended.  When the options do not set [depsOnly], the run opens
    with the registration of ['timeSystem'], and that call occurs once in the
    whole sequence, unless the lookup of [cfitsioLibs] gives the list
    [['timeSystem']] itself: then it occurs twice, first and last. *)
Theorem artifact_registered_once `{Environment E} (env : E) (kw : gmap string value) :
  depsOnly kw = false →
  head (calls (trace (generate env kw))) = Some artifact_call ∧
  times_issued artifact_call (trace (generate env kw)) =
    if decide (cfitsioLibs_lookup (trace (generate env kw)) = Some (Ok timeSystem_libs))
    then 2 else 1.
Proof.
  intros Hd. run_cases env kw; unfold own_registration in *; rewrite Hd in *;
    simpl in *.
  - unfold dependency_calls in Hcs. split_calls; split; reflexivity.
  - split; reflexivity.
  - split; [reflexivity |].
    change (times_issued artifact_call
              (returned (artifact_call :: dependency_calls) ++
               [EvGetItem "cfitsioLibs" (Ok got); EvTool (third_party_call got) out]) =
            if decide (Some (Ok got) = Some (Ok timeSystem_libs)) then 2 else 1).
    rewrite times_issued_app, times_issued_last.
    unfold third_party_call, artifact_call.
    repeat case_decide; simplify_eq; reflexivity.
Qed.

Lemma artifact_registered_once_witness :
  depsOnly ∅ = false ∧
  head (calls (trace (generate (Recorder cfitsio_config []) ∅))) = Some artifact_call ∧
  times_issued artifact_call (trace (generate (Recorder cfitsio_config []) ∅)) =
    if decide (cfitsioLibs_lookup (trace (generate (Recorder cfitsio_config []) ∅)) =
               Some (Ok timeSystem_libs))
    then 2 else 1.
Proof.
  split; [reflexivity |].
  apply (artifact_registered_once (Recorder cfitsio_config []) ∅). reflexivity.
Defined.

(** C3, as stated, fails: with [depsOnly] set and no [cfitsioLibs] in the
    configuration, the run issues the four dependencies and then raises at
    the lookup; no third-party registration is issued. *)
Lemma third_party_registration_missing :
  depsOnly depsOnly_options = true ∧
  calls (trace (generate (Recorder ∅ []) depsOnly_options)) = dependency_calls ∧
  outcome (generate (Recorder ∅ []) depsOnly_options) = Raise (KeyError "cfitsioLibs") ∧
  ¬ ∃ libs, third_party_call libs ∈ calls (trace (generate (Recorder ∅ []) depsOnly_options)).
Proof.
  split_and!; [reflexivity | reflexivity | reflexivity |].
  intros [libs Hin]. vm_compute in Hin.
  repeat (apply elem_of_cons in Hin as [Hin | Hin]; [discriminate Hin |]).
  by apply elem_of_nil in Hin.
Qed.

(** The count of C3 fails as well when [cfitsioLibs] is bound to
    [['timeSystem']]: the last call is then the call that [depsOnly] was to
    suppress. *)
Example depsOnly_with_timeSystem_config :
  depsOnly depsOnly_options = true ∧
  times_issued artifact_call
    (trace (generate (Recorder timeSystem_config []) depsOnly_options)) = 1.
Proof. split; reflexivity. Qed.

(** C3, amended.  When the options set [depsOnly], the module's own
    registration is skipped: the run opens with the facilities dependency,
    and the call [addLibrary] with [['timeSystem']] occurs in the sequence
    only if the lookup of [cfitsioLibs] gives that very list (then once, as
    the last call).  The four dependencies are all issued, in order, and
    [cfitsioLibs] is looked up, unless one of the four raises, in which case
    the calls issued are an initial segment of the four.  When the lookup
    finds a value [libs], the registration of [libs] follows as the last
    call; when it misses, the run ends in its [KeyError] after the four
    dependencies and nothing else. *)
Theorem no_artifact_when_depsOnly `{Environment E} (env : E) (kw : gmap string value) :
  depsOnly kw = true →
  head (calls (trace (generate env kw))) = Some (Call "st_facilitiesLib" []) ∧
  times_issued artifact_call (trace (generate env kw)) =
    (if decide (cfitsioLibs_lookup (trace (generate env kw)) = Some (Ok timeSystem_libs))
     then 1 else 0) ∧
  match cfitsioLibs_lookup (trace (generate env kw)) with
  | Some (Ok libs) =>
      calls (trace (generate env kw)) = dependency_calls ++ [third_party_call libs]
  | Some (Raise x) =>
      calls (trace (generate env kw)) = dependency_calls ∧
      outcome (generate env kw) = Raise x
  | None =>
      calls (trace (generate env kw)) `prefix_of` dependency_calls ∧
      all_tools_returned (trace (generate env kw)) = false ∧
      ∃ x, outcome (generate env kw) = Raise x
  end.
Proof.
  intros Hd. run_cases env kw; unfold own_registration in *; rewrite Hd in *;
    simpl in *.
  - unfold dependency_calls in Hcs. split_calls; cbn;
      (split_and!;
       [ reflexivity | reflexivity | vm_compute; eexists; reflexivity
       | reflexivity | eauto ]).
  - cbn. split_and!; reflexivity.
  - cbn. split_and!; [reflexivity | | reflexivity].
    change (times_issued artifact_call
              (returned dependency_calls ++
               [EvGetItem "cfitsioLibs" (Ok got); EvTool (third_party_call got) out]) =
            if decide (Some (Ok got) = Some (Ok timeSystem_libs)) then 1 else 0).
    rewrite times_issued_app, times_issued_last.
    unfold third_party_call, artifact_call.
    repeat case_decide; simplify_eq; reflexivity.
Qed.

Lemma no_artifact_when_depsOnly_witness :
  (depsOnly depsOnly_options = true ∧
   cfitsioLibs_lookup (trace (generate (Recorder cfitsio_config []) depsOnly_options)) =
     Some (Ok cfitsio_libs) ∧
   head (calls (trace (generate (Recorder cfitsio_config []) depsOnly_options))) =
     Some (Call "st_facilitiesLib" []) ∧
   times_issued artifact_call
     (trace (generate (Recorder cfitsio_config []) depsOnly_options)) = 0 ∧
   calls (trace (generate (Recorder cfitsio_config []) depsOnly_options)) =
     [Call "st_facilitiesLib" []; Call "st_streamLib" []; Call "tipLib" [];
      Call "st_appLib" []; Call "addLibrary" [("library", VList [VStr "cfitsio"])]]) ∧
  (cfitsioLibs_lookup (trace (generate (Recorder ∅ []) depsOnly_options)) =
     Some (Raise (KeyError "cfitsioLibs")) ∧
   calls (trace (generate (Recorder ∅ []) depsOnly_options)) =
     [Call "st_facilitiesLib" []; Call "st_streamLib" []; Call "tipLib" [];
      Call "st_appLib" []] ∧
   outcome (generate (Recorder ∅ []) depsOnly_options) = Raise (KeyError "cfitsioLibs")).
Proof.
  assert (depsOnly depsOnly_options = true) as Hd by reflexivity.
  pose proof (no_artifact_when_depsOnly (Recorder cfitsio_config []) depsOnly_options Hd)
    as (Hhead & Hcount & Hcalls).
  pose proof (no_artifact_when_depsOnly (Recorder ∅ []) depsOnly_options Hd)
    as (_ & _ & Hmiss).
  split.
  - split_and!; [exact Hd | reflexivity | exact Hhead | exact Hcount | exact Hcalls].
  - split; [reflexivity | exact Hmiss].
Defined.

(** C4, as stated, fails: with [cfitsioLibs] bound to [['timeSystem']] and
    no [depsOnly], two calls carry the list bound to [cfitsioLibs], the first
    and the last. *)
Lemma third_party_list_registered_twice :
  env_config (Recorder timeSystem_config []) !! "cfitsioLibs" = Some timeSystem_libs ∧
  times_issued (third_party_call timeSystem_libs)
    (trace (generate (Recorder timeSystem_config []) ∅)) = 2.
Proof. split; reflexivity. Qed.

(** A [Tool] call that raises before the lookup leaves C4 without any such
    call, although the key is bound. *)
Example no_third_party_after_unknown_tool :
  env_config registry_without_stream !! "cfitsioLibs" = Some cfitsio_libs ∧
  times_issued (third_party_call cfitsio_libs)
    (trace (generate registry_without_stream ∅)) = 0 ∧
  last (calls (trace (generate registry_without_stream ∅))) =
    Some (Call "st_streamLib" []).
Proof. split_and!; reflexivity. Qed.

(** C4, amended.  When the run comes to the lookup of [cfitsioLibs] and
    finds the value [libs], the registration of [libs] is the last operation
    of the run; and it is the only call with that list of libraries, except
    when the options do not set [depsOnly] and [libs] is [['timeSystem']],
    where the opening call carries the same list. *)
Theorem third_party_registration_last `{Environment E}
    (env : E) (kw : gmap string value) (libs : value) :
  cfitsioLibs_lookup (trace (generate env kw)) = Some (Ok libs) →
  (∃ out, last (trace (generate env kw)) = Some (EvTool (third_party_call libs) out)) ∧
  last (calls (trace (generate env kw))) = Some (third_party_call libs) ∧
  times_issued (third_party_call libs) (trace (generate env kw)) =
    if decide (depsOnly kw = false ∧ libs = timeSystem_libs) then 2 else 1.
Proof.
  run_cases env kw; rewrite ?cfitsioLibs_lookup_returned; simpl; try done.
  intros [= ->].
  rewrite calls_app, calls_returned, times_issued_app, times_issued_last,
    times_issued_before, last_app. simpl. rewrite last_snoc.
  split_and!; [eauto | done |]. repeat case_decide; done.
Qed.

Lemma third_party_registration_last_witness :
  cfitsioLibs_lookup (trace (generate (Recorder cfitsio_config []) ∅)) =
    Some (Ok cfitsio_libs) ∧
  (∃ out, last (trace (generate (Recorder cfitsio_config []) ∅)) =
            Some (EvTool (third_party_call cfitsio_libs) out)) ∧
  last (calls (trace (generate (Recorder cfitsio_config []) ∅))) =
    Some (third_party_call cfitsio_libs) ∧
  times_issued (third_party_call cfitsio_libs)
    (trace (generate (Recorder cfitsio_config []) ∅)) =
    if decide (depsOnly ∅ = false ∧ cfitsio_libs = timeSystem_libs) then 2 else 1.
Proof.
  split; [reflexivity |].
  apply (third_party_registration_last (Recorder cfitsio_config []) ∅). reflexivity.
Defined.

(** C5.  [exists] gives the constant [1], a true value, whatever the
    environment is, even one with no capability at all; it performs no
    operation on the environment and leaves it as it was. *)
Theorem exists_constant_true {E : Type} (env : E) :
  exists_ env = Run [] env (Ok (VInt 1)) ∧ truthy (VInt 1) = true.
Proof. split; reflexivity. Qed.

Example exists_on_empty_stub : exists_ () = Run [] () (Ok (VInt 1)).
Proof. reflexivity. Qed.

(** C6.  [generate] has no error handling of its own.  It raises [x] if and
    only if one of the operations it invoked on the environment raised [x],
    the very same exception; and an operation that raised is the last
    operation of the run: nothing is caught, nothing retried, nothing
    executed after it. *)
Theorem generate_propagates_errors `{Environment E} (env : E) (kw : gmap string value) :
  (∀ x, outcome (generate env kw) = Raise x ↔
        ∃ ev, ev ∈ trace (generate env kw) ∧ raised ev = Some x) ∧
  (∀ pre ev post, trace (generate env kw) = pre ++ ev :: post →
                  is_Some (raised ev) → post = []).
Proof.
  destruct (generate_last env kw) as (good & l & Htr & Hgood & Hl).
  rewrite Htr. split.
  - intros x. split.
    + intros Hx. rewrite Hx in Hl. exists l. split; [set_solver | done].
    + intros (ev & Hin & Hev). apply elem_of_app in Hin as [Hin | Hin].
      * rewrite Forall_forall in Hgood. apply Hgood in Hin. congruence.
      * apply list_elem_of_singleton in Hin as ->.
        rewrite Hev in Hl. by destruct (outcome (generate env kw)); simplify_eq.
  - intros pre ev post Heq Hev. by destruct (raise_is_last _ _ _ _ _ Hgood Heq Hev).
Qed.

(** C7, as stated, fails: an orchestrator that refuses a registration it
    has already taken lets the first run through and stops the second one at
    its first call. *)
Lemma second_run_cut_short :
  outcome (generate strict_registry ∅) = Ok VNone ∧
  calls (trace (generate strict_registry ∅)) =
    artifact_call :: dependency_calls ++ [third_party_call cfitsio_libs] ∧
  calls (trace (generate (final_env (generate strict_registry ∅)) ∅)) = [artifact_call] ∧
  outcome (generate (final_env (generate strict_registry ∅)) ∅) =
    Raise (Exn "DuplicateTool" "addLibrary") ∧
  calls (trace (generate (final_env (generate strict_registry ∅)) ∅)) ≠
    calls (trace (generate strict_registry ∅)).
Proof. split_and!; [reflexivity | reflexivity | reflexivity | reflexivity | discriminate]. Qed.

(** C7, amended.  Against an environment that takes every [Tool] call and
    whose tools leave the binding of [cfitsioLibs] alone, a second run of
    [generate] on the environment as the first run left it performs the same
    operations with the same outcomes and ends the same way.  [exists]
    performs no operation and leaves the environment as it was, so a second
    call gives what the first gave. *)
Theorem generate_twice_same `{Accepting E} (env : E) (kw : gmap string value) :
  trace (generate (final_env (generate env kw)) kw) = trace (generate env kw) ∧
  outcome (generate (final_env (generate env kw)) kw) = outcome (generate env kw) ∧
  exists_ (final_env (exists_ env)) = exists_ env.
Proof.
  destruct (accepting_generate env kw) as (Htr & Hout & Hcfg).
  destruct (accepting_generate (final_env (generate env kw)) kw) as (Htr' & Hout' & _).
  rewrite Htr, Hout, Htr', Hout', Hcfg. done.
Qed.

Lemma generate_twice_same_witness :
  trace (generate (final_env (generate (Recorder cfitsio_config []) ∅)) ∅) =
    trace (generate (Recorder cfitsio_config []) ∅) ∧
  outcome (generate (final_env (generate (Recorder cfitsio_config []) ∅)) ∅) =
    outcome (generate (Recorder cfitsio_config []) ∅) ∧
  exists_ (final_env (exists_ (Recorder cfitsio_config []))) =
    exists_ (Recorder cfitsio_config []).
Proof. exact (generate_twice_same (Recorder cfitsio_config []) ∅). Defined.

(** C8, as stated, fails: two environments with the same options and the
    same binding of [cfitsioLibs], one of which cannot resolve
    [st_streamLib], are issued different sequences of calls. *)
Lemma equal_inputs_different_calls :
  env_config strict_registry !! "cfitsioLibs" =
    env_config registry_without_stream !! "cfitsioLibs" ∧
  length (calls (trace (generate strict_registry ∅))) = 6 ∧
  length (calls (trace (generate registry_without_stream ∅))) = 3 ∧
  calls (trace (generate strict_registry ∅)) ≠
    calls (trace (generate registry_without_stream ∅)).
Proof. split_and!; [reflexivity | reflexivity | reflexivity | discriminate]. Qed.

(** C8, amended.  The calls a run issues are decided by the truth value of
    [depsOnly], by what the lookup of [cfitsioLibs] gives (a value, a miss,
    or nothing because the run never came to it), and by where a [Tool] call
    raises, if one does: two runs that agree on these three issue the same
    calls, in environments of any kind.  In particular two runs in which no
    [Tool] call raises, with options of equal truth value for [depsOnly] and
    lookups that give the same, perform the very same operations. *)
Theorem generate_deterministic `{Environment E1} `{Environment E2}
    (env1 : E1) (env2 : E2) (kw1 kw2 : gmap string value) :
  depsOnly kw1 = depsOnly kw2 →
  cfitsioLibs_lookup (trace (generate env1 kw1)) =
    cfitsioLibs_lookup (trace (generate env2 kw2)) →
  raise_position (trace (generate env1 kw1)) =
    raise_position (trace (generate env2 kw2)) →
  calls (trace (generate env1 kw1)) = calls (trace (generate env2 kw2)) ∧
  (all_tools_returned (trace (generate env1 kw1)) = true →
   trace (generate env1 kw1) = trace (generate env2 kw2)).
Proof.
  intros Hd. assert (own_registration kw1 = own_registration kw2) as Hown
    by (unfold own_registration; by rewrite Hd).
  run_cases env1 kw1; run_cases_again env2 kw2;
    rewrite ?raise_position_returned, ?all_tools_returned_app,
      ?all_tools_returned_returned, ?cfitsioLibs_lookup_returned, ?calls_app,
      ?calls_returned, ?Hown; simpl; try done.
  - intros _ [= Hlen]. rewrite Hown in Hcs.
    match goal with
    | Hcs2 : own_registration kw2 ++ dependency_calls = _ |- _ =>
        rewrite Hcs in Hcs2; apply app_inj_1 in Hcs2 as [-> [= -> _]]; [done | lia]
    end.
  - intros [= ->] Hpos. split; [done |].
    destruct out as [x |]; [done |]. intros _.
    match goal with
    | |- context [EvTool _ ?o] => destruct o as [? |]; [done | done]
    end.
Qed.

Lemma generate_deterministic_witness :
  (depsOnly ∅ = depsOnly {[ "depsOnly" := VInt 0 ]} ∧
   cfitsioLibs_lookup (trace (generate registry_without_stream ∅)) =
     cfitsioLibs_lookup
       (trace (generate timeSystem_registry_without_stream {[ "depsOnly" := VInt 0 ]})) ∧
   raise_position (trace (generate registry_without_stream ∅)) = Some 2%nat ∧
   raise_position
     (trace (generate timeSystem_registry_without_stream {[ "depsOnly" := VInt 0 ]})) =
     Some 2%nat ∧
   calls (trace (generate registry_without_stream ∅)) =
     [artifact_call; Call "st_facilitiesLib" []; Call "st_streamLib" []] ∧
   calls (trace (generate registry_without_stream ∅)) =
     calls (trace (generate timeSystem_registry_without_stream
                     {[ "depsOnly" := VInt 0 ]}))) ∧
  (depsOnly ∅ = depsOnly {[ "depsOnly" := VInt 0 ]} ∧
   cfitsioLibs_lookup (trace (generate (Recorder cfitsio_config []) ∅)) =
     cfitsioLibs_lookup (trace (generate strict_registry {[ "depsOnly" := VInt 0 ]})) ∧
   raise_position (trace (generate (Recorder cfitsio_config []) ∅)) =
     raise_position (trace (generate strict_registry {[ "depsOnly" := VInt 0 ]})) ∧
   all_tools_returned (trace (generate (Recorder cfitsio_config []) ∅)) = true ∧
   calls (trace (generate (Recorder cfitsio_config []) ∅)) =
     calls (trace (generate strict_registry {[ "depsOnly" := VInt 0 ]})) ∧
   trace (generate (Recorder cfitsio_config []) ∅) =
     trace (generate strict_registry {[ "depsOnly" := VInt 0 ]})).
Proof.
  assert (depsOnly ∅ = depsOnly {[ "depsOnly" := VInt 0 ]}) as Hd by reflexivity.
  split.
  - split_and!; [exact Hd | reflexivity | reflexivity | reflexivity | reflexivity |].
    apply (generate_deterministic registry_without_stream
             timeSystem_registry_without_stream ∅ {[ "depsOnly" := VInt 0 ]});
      reflexivity.
  - assert (calls (trace (generate (Recorder cfitsio_config []) ∅)) =
              calls (trace (generate strict_registry {[ "depsOnly" := VInt 0 ]})) ∧
            (all_tools_returned (trace (generate (Recorder cfitsio_config []) ∅)) = true →
             trace (generate (Recorder cfitsio_config []) ∅) =
               trace (generate strict_registry {[ "depsOnly" := VInt 0 ]})))
      as [Hcalls Htrace]
      by (apply (generate_deterministic (Recorder cfitsio_config []) strict_registry
                   ∅ {[ "depsOnly" := VInt 0 ]}); reflexivity).
    split_and!; [exact Hd | reflexivity | reflexivity | reflexivity | exact Hcalls |].
    apply Htrace. reflexivity.
Defined.

(** C9.  When the options do not set [depsOnly], the registration of
    ['timeSystem'] is the first operation of the run: everything else that
    is issued, the dependency registrations and then the third-party one,
    comes after it and in that order. *)
Theorem artifact_registration_first `{Environment E} (env : E) (kw : gmap string value) :
  depsOnly kw = false →
  ∃ out rest,
    trace (generate env kw) = EvTool artifact_call out :: rest ∧
    calls rest `prefix_of`
      dependency_calls ++ third_party_issued (trace (generate env kw)).
Proof.
  intros Hd. run_cases env kw; unfold own_registration in *; rewrite Hd in *;
    simpl in *.
  - unfold dependency_calls in Hcs. split_calls;
      eexists _, _; (split; [reflexivity |]); vm_compute; eexists; reflexivity.
  - eexists _, _. split; [reflexivity |]. vm_compute. eexists; reflexivity.
  - eexists _, _. split; [reflexivity |]. vm_compute. eexists; reflexivity.
Qed.

Lemma artifact_registration_first_witness :
  depsOnly ∅ = false ∧
  ∃ out rest,
    trace (generate (Recorder cfitsio_config []) ∅) = EvTool artifact_call out :: rest ∧
    calls rest `prefix_of`
      dependency_calls ++
      third_party_issued (trace (generate (Recorder cfitsio_config []) ∅)).
Proof.
  split; [reflexivity |].
  apply (artifact_registration_first (Recorder cfitsio_config []) ∅). reflexivity.
Defined.


(** Nor need there be an error at all: a tool may bind the key before it is
    read. *)
Example missing_key_supplied_by_tool :
  env_config (Provider ∅) !! "cfitsioLibs" = None ∧
  outcome (generate (Provider ∅) ∅) = Ok VNone.
Proof. split; reflexivity. Qed.




(** The recording double shows it: after the failed run it holds the five
    registrations. *)
Example recorder_after_missing_key :
  outcome (generate (Recorder ∅ []) ∅) = Raise (KeyError "cfitsioLibs") ∧
  rec_calls (final_env (generate (Recorder ∅ []) ∅)) = artifact_call :: dependency_calls.
Proof. split; reflexivity. Qed.

(** The scenarios of the specification, run on the recording double. *)
Example scenario_default_options :
  calls (trace (generate (Recorder cfitsio_config []) ∅)) =
    [artifact_call; Call "st_facilitiesLib" []; Call "st_streamLib" [];
     Call "tipLib" []; Call "st_appLib" []; third_party_call cfitsio_libs] ∧
  outcome (generate (Recorder cfitsio_config []) ∅) = Ok VNone.
Proof. split; reflexivity. Qed.

Example scenario_depsOnly :
  calls (trace (generate (Recorder cfitsio_config []) depsOnly_options)) =
    [Call "st_facilitiesLib" []; Call "st_streamLib" [];
     Call "tipLib" []; Call "st_appLib" []; third_party_call cfitsio_libs] ∧
  outcome (generate (Recorder cfitsio_config []) depsOnly_options) = Ok VNone.
Proof. split; reflexivity. Qed.

(** ** Further properties of [generate] *)

(** X1.  The options count only through the truth value of [depsOnly]: two
    option mappings under which [kw.get('depsOnly', 0)] tests equally true,
    whatever other keys they hold and whatever the value is, give the same
    run on the same environment. *)
Theorem options_only_through_depsOnly `{Environment E}
    (env : E) (kw1 kw2 : gmap string value) :
  truthy (dict_get kw1 "depsOnly" (VInt 0)) = truthy (dict_get kw2 "depsOnly" (VInt 0)) →
  generate env kw1 = generate env kw2.
Proof. intros Hd. unfold generate. by rewrite Hd. Qed.

Lemma options_only_through_depsOnly_witness :
  truthy (dict_get ∅ "depsOnly" (VInt 0)) =
    truthy (dict_get {[ "depsOnly" := VStr ""; "verbose" := VBool true ]}
              "depsOnly" (VInt 0)) ∧
  generate strict_registry ∅ =
    generate strict_registry {[ "depsOnly" := VStr ""; "verbose" := VBool true ]}.
Proof.
  split; [reflexivity |].
  apply (options_only_through_depsOnly strict_registry). reflexivity.
Defined.

(** X3.  [generate] returns exactly when every [Tool] call returned and the
    lookup of [cfitsioLibs] found a value; what it returns is [None], and
    the run then consists of the own registration (if asked for), the four
    dependencies, the lookup and the registration of the list found, all of
    which returned. *)
Theorem generate_returns `{Environment E} (env : E) (kw : gmap string value) (v : value) :
  (outcome (generate env kw) = Ok v ↔
   v = VNone ∧ all_tools_returned (trace (generate env kw)) = true ∧
   ∃ libs, cfitsioLibs_lookup (trace (generate env kw)) = Some (Ok libs)) ∧
  (outcome (generate env kw) = Ok v →
   ∃ libs, trace (generate env kw) =
             returned (own_registration kw ++ dependency_calls) ++
             [EvGetItem "cfitsioLibs" (Ok libs); EvTool (third_party_call libs) None]).
Proof.
  run_cases env kw;
    rewrite ?all_tools_returned_app, ?all_tools_returned_returned,
      ?cfitsioLibs_lookup_returned; simpl.
  - split; [split; [done | by intros (_ & ? & _)] | done].
  - split; [split; [done | by intros (_ & _ & ? & ?)] | done].
  - destruct out as [x |]; simpl.
    + split; [split; [done | by intros (_ & ? & _)] | done].
    + split; [split; [intros [= <-]; eauto | by intros (-> & _)] | eauto].
Qed.

(** X4.  What a run never does.  It issues at least one and at most six
    [Tool] calls, each naming one of [addLibrary], [st_facilitiesLib],
    [st_streamLib], [tipLib], [st_appLib]; and it subscripts the environment
    at most once, with the key [cfitsioLibs] and no other. *)
Theorem generate_within_bounds `{Environment E} (env : E) (kw : gmap string value) :
  Forall (λ c, call_tool c ∈ all_tools) (calls (trace (generate env kw))) ∧
  (1 ≤ length (calls (trace (generate env kw))) ≤ 6)%nat ∧
  (lookups (trace (generate env kw)) = [] ∨
   lookups (trace (generate env kw)) = ["cfitsioLibs"]).
Proof.
  run_cases env kw; unfold own_registration in *; destruct (depsOnly kw);
    unfold dependency_calls in *; simpl in *; split_calls;
    (split_and!;
     [ apply (bool_decide_unpack _); vm_compute; reflexivity
     | vm_compute; lia
     | vm_compute; lia
     | first [left; reflexivity | right; reflexivity] ]).
Qed.

(** X6.  The list of third-party libraries is read late.  When the own
    registration and the four dependency calls all return, the lookup of
    [cfitsioLibs] sees the configuration as those calls left it, not as it
    was when [generate] was entered: a binding that one of the tools made is
    found, one that a tool removed is missed. *)
Theorem library_list_read_after_dependencies `{Environment E}
    (env : E) (kw : gmap string value) :
  outcome (issue (own_registration kw ++ dependency_calls) env) = Ok () →
  cfitsioLibs_lookup (trace (generate env kw)) =
    Some (match env_config
                  (final_env (issue (own_registration kw ++ dependency_calls) env))
                  !! "cfitsioLibs" with
          | Some libs => Ok libs
          | None => Raise (KeyError "cfitsioLibs")
          end) ∧
  third_party_issued (trace (generate env kw)) =
    match env_config
            (final_env (issue (own_registration kw ++ dependency_calls) env))
            !! "cfitsioLibs" with
    | Some libs => [third_party_call libs]
    | None => []
    end.
Proof.
  rewrite generate_issue. unfold third_party_issued.
  pose proof (issue_ok (own_registration kw ++ dependency_calls) env ()) as Hok.
  destruct (issue (own_registration kw ++ dependency_calls) env) as [tr env1 r].
  cbn [trace outcome final_env] in *. intros ->. rewrite (Hok eq_refl).
  destruct (env_config env1 !! "cfitsioLibs") as [libs |].
  - destruct (env_Tool "addLibrary" [("library", libs)] env1) as [env2 out].
    cbn [trace]. by rewrite cfitsioLibs_lookup_returned.
  - cbn [trace]. by rewrite cfitsioLibs_lookup_returned.
Qed.

Lemma library_list_read_after_dependencies_witness :
  env_config (Provider ∅) !! "cfitsioLibs" = None ∧
  outcome (issue (own_registration ∅ ++ dependency_calls) (Provider ∅)) = Ok () ∧
  cfitsioLibs_lookup (trace (generate (Provider ∅) ∅)) = Some (Ok cfitsio_libs) ∧
  third_party_issued (trace (generate (Provider ∅) ∅)) = [third_party_call cfitsio_libs].
Proof.
  split; [reflexivity |]. split; [reflexivity |].
  assert (outcome (issue (own_registration ∅ ++ dependency_calls) (Provider ∅)) = Ok ())
    as Hok by reflexivity.
  exact (library_list_read_after_dependencies (Provider ∅) ∅ Hok).
Defined.

(** X7.  Program order.  In every run, whatever the options and wherever it
    ends, the calls issued are an initial segment of: the own registration
    (unless [depsOnly] is set), the four dependencies, the registration of
    the list found under [cfitsioLibs].  No call is skipped over and none is
    issued out of turn. *)
Theorem calls_follow_program_order `{Environment E} (env : E) (kw : gmap string value) :
  calls (trace (generate env kw)) `prefix_of`
    own_registration kw ++ dependency_calls ++
    third_party_issued (trace (generate env kw)).
Proof.
  run_cases env kw; unfold own_registration in *; destruct (depsOnly kw);
    unfold dependency_calls in *; simpl in *; split_calls;
    vm_compute; eexists; reflexivity.
Qed.

(** X8.  Against an environment that takes every [Tool] call and whose
    tools leave the binding of [cfitsioLibs] alone, a missing [cfitsioLibs]
    is the only way to fail: [generate] returns if and only if the key is
    bound when it is entered, raises the [KeyError] of that key if and only
    if it is not, and issues four calls, one more for the own registration
    and one more for the third-party list when there is one. *)
Theorem accepting_contract `{Accepting E} (env : E) (kw : gmap string value) :
  (outcome (generate env kw) = Ok VNone ↔ is_Some (env_config env !! "cfitsioLibs")) ∧
  (outcome (generate env kw) = Raise (KeyError "cfitsioLibs") ↔
   env_config env !! "cfitsioLibs" = None) ∧
  length (calls (trace (generate env kw))) =
    ((if depsOnly kw then 0 else 1) + 4 +
     (match env_config env !! "cfitsioLibs" with Some _ => 1 | None => 0 end))%nat.
Proof.
  destruct (accepting_generate env kw) as (-> & -> & _).
  rewrite calls_app, calls_returned, !length_app. unfold own_registration.
  destruct (env_config env !! "cfitsioLibs") as [libs |]; destruct (depsOnly kw);
    (split_and!; [split; (done || by intros [? ?] || eauto) | split; done | reflexivity]).
Qed.

Lemma accepting_contract_witness :
  (outcome (generate (Recorder cfitsio_config []) ∅) = Ok VNone ↔
   is_Some (env_config (Recorder cfitsio_config []) !! "cfitsioLibs")) ∧
  (outcome (generate (Recorder cfitsio_config []) ∅) = Raise (KeyError "cfitsioLibs") ↔
   env_config (Recorder cfitsio_config []) !! "cfitsioLibs" = None) ∧
  length (calls (trace (generate (Recorder cfitsio_config []) ∅))) =
    ((if depsOnly ∅ then 0 else 1) + 4 +
     (match env_config (Recorder cfitsio_config []) !! "cfitsioLibs" with
      | Some _ => 1 | None => 0 end))%nat.
Proof. exact (accepting_contract (Recorder cfitsio_config []) ∅). Defined.
